(** * Email-Verifier: a shallow embedding of [email_verifier.py]

    The module performs syntax validation ([validate_email_syntax]), DNS/MX
    resolution ([check_dns_and_mx]), an SMTP RCPT-TO probe over several ports
    ([smtp_handshake]), catch-all detection ([check_catch_all]) and the
    orchestration of all of them ([verify_email]).

    The outside world (the DNS resolver, the SMTP servers and the random
    number generator) is an explicit environment [env]; every network call
    the code makes is recorded in an event log, and Python exceptions are an
    explicit error result. *)

From Stdlib Require Import String Ascii List Bool ZArith Lia.
From Stdlib Require Import Sorting.Sorted Sorting.Permutation.
From Stdlib Require Import Floats.
Import ListNotations.
Open Scope string_scope.

(** ** Python values and exceptions *)

(** The argument of [verify_email]: a [str], or any other (built-in) Python
    value, of which only its truthiness matters to the code. *)
Inductive pyval :=
| PStr (s : string)
| PNonStr (truthy : bool).

(** The exception classes the code distinguishes in its [except] clauses.
    The [string] argument is [str(e)]. *)
Inductive exc :=
| TimeoutErr (msg : string)             (* socket.timeout = TimeoutError, an OSError *)
| Gaierror (msg : string)               (* socket.gaierror, an OSError *)
| ConnRefused (msg : string)            (* ConnectionRefusedError, an OSError *)
| ConnReset (msg : string)              (* ConnectionResetError, an OSError *)
| OSErr (msg : string)                  (* any other OSError *)
| SMTPServerDisconnected (msg : string) (* smtplib.SMTPException < OSError *)
| SMTPRecipientsRefused (msg : string)  (* smtplib.SMTPException < OSError *)
| SMTPOther (msg : string)              (* any other smtplib.SMTPException *)
| DnsNXDOMAIN (msg : string)            (* dns.resolver.NXDOMAIN *)
| DnsNoAnswer (msg : string)            (* dns.resolver.NoAnswer *)
| DnsNoNameservers (msg : string)       (* dns.resolver.NoNameservers *)
| DnsTimeout (msg : string)             (* dns.exception.Timeout (LifetimeTimeout) *)
| DnsOther (msg : string)               (* any other dns.exception.DNSException *)
| OtherExc (msg : string).              (* any other Exception *)

Definition exc_str (e : exc) : string :=
  match e with
  | TimeoutErr m | Gaierror m | ConnRefused m | ConnReset m | OSErr m
  | SMTPServerDisconnected m | SMTPRecipientsRefused m | SMTPOther m
  | DnsNXDOMAIN m | DnsNoAnswer m | DnsNoNameservers m | DnsTimeout m
  | DnsOther m | OtherExc m => m
  end.

(** [isinstance] tests along Python's class hierarchy. *)
Definition is_timeout (e : exc) : bool :=
  match e with TimeoutErr _ => true | _ => false end.

Definition is_gaierror (e : exc) : bool :=
  match e with Gaierror _ => true | _ => false end.

Definition is_oserror (e : exc) : bool :=
  match e with
  | TimeoutErr _ | Gaierror _ | ConnRefused _ | ConnReset _ | OSErr _
  | SMTPServerDisconnected _ | SMTPRecipientsRefused _ | SMTPOther _ => true
  | _ => false
  end.

Definition is_server_disconnected (e : exc) : bool :=
  match e with SMTPServerDisconnected _ => true | _ => false end.

Definition is_recipients_refused (e : exc) : bool :=
  match e with SMTPRecipientsRefused _ => true | _ => false end.

(** ** Strings *)

(** [needle in haystack] *)
Fixpoint str_prefix (p s : string) : bool :=
  match p, s with
  | EmptyString, _ => true
  | String c p', String d s' => Ascii.eqb c d && str_prefix p' s'
  | String _ _, EmptyString => false
  end.

Fixpoint str_contains (needle s : string) : bool :=
  str_prefix needle s ||
  match s with
  | EmptyString => false
  | String _ s' => str_contains needle s'
  end.

(** [s.split(sep)] for a one-character separator. *)
Fixpoint py_split (sep : ascii) (s : string) : list string :=
  match s with
  | EmptyString => [EmptyString]
  | String c s' =>
      if Ascii.eqb c sep then EmptyString :: py_split sep s'
      else match py_split sep s' with
           | [] => [String c EmptyString]
           | w :: ws => String c w :: ws
           end
  end.

(** ** The regular expression of [validate_email_syntax]

    A small regex language, enough for the pattern of the source, with the
    semantics of Python's backtracking matcher: [rests r s] lists every
    suffix of [s] left over after [r] matches a prefix of [s]; [re.match]
    succeeds iff some such suffix exists. *)
Inductive regex :=
| RStart                              (* ^ *)
| RClass (p : ascii -> bool)          (* one character of a class *)
| RAtLeast (n : nat) (p : ascii -> bool) (* [class]{n,} (so + is {1,}) *)
| RCat (r1 r2 : regex)
| RDollar.                            (* $ *)

Fixpoint class_star (p : ascii -> bool) (s : list ascii) : list (list ascii) :=
  s :: match s with
       | [] => []
       | c :: t => if p c then class_star p t else []
       end.

Fixpoint class_at_least (n : nat) (p : ascii -> bool) (s : list ascii)
  : list (list ascii) :=
  match n with
  | O => class_star p s
  | S n' => match s with
            | [] => []
            | c :: t => if p c then class_at_least n' p t else []
            end
  end.

Fixpoint rests (r : regex) (s : list ascii) : list (list ascii) :=
  match r with
  | RStart => [s]   (* [re.match] matches at position 0, where ^ holds *)
  | RClass p => match s with
                | c :: t => if p c then [t] else []
                | [] => []
                end
  | RAtLeast n p => class_at_least n p s
  | RCat r1 r2 => flat_map (rests r2) (rests r1 s)
  | RDollar =>
      (* without MULTILINE, $ matches at the end of the string or just
         before a newline that ends the string *)
      match s with
      | [] => [s]
      | [c] => if Ascii.eqb c "010"%char then [s] else []
      | _ => []
      end
  end.

Definition re_match (r : regex) (s : string) : bool :=
  match rests r (list_ascii_of_string s) with
  | [] => false
  | _ :: _ => true
  end.

Definition in_range (lo hi c : ascii) : bool :=
  (N.leb (N_of_ascii lo) (N_of_ascii c)) && (N.leb (N_of_ascii c) (N_of_ascii hi)).

Definition is_alpha (c : ascii) : bool :=
  in_range "a" "z" c || in_range "A" "Z" c.

Definition is_alnum (c : ascii) : bool := is_alpha c || in_range "0" "9" c.

(** [a-zA-Z0-9._%+-] *)
Definition local_class (c : ascii) : bool :=
  is_alnum c || Ascii.eqb c "." || Ascii.eqb c "_" || Ascii.eqb c "%"
  || Ascii.eqb c "+" || Ascii.eqb c "-".

(** [a-zA-Z0-9.-] *)
Definition domain_class (c : ascii) : bool :=
  is_alnum c || Ascii.eqb c "." || Ascii.eqb c "-".

(** r'^[a-zA-Z0-9._%+-]+@[a-zA-Z0-9.-]+\.[a-zA-Z]{2,}$' *)
Definition email_pattern : regex :=
  RCat RStart
  (RCat (RAtLeast 1 local_class)
  (RCat (RClass (Ascii.eqb "@"))
  (RCat (RAtLeast 1 domain_class)
  (RCat (RClass (Ascii.eqb "."))
  (RCat (RAtLeast 2 is_alpha)
        RDollar))))).

(** [validate_email_syntax] (lines 38-48). *)
Definition validate_email_syntax (email : pyval) : bool :=
  match email with
  | PStr s =>
      (* if not email or not isinstance(email, str): return False *)
      if String.eqb s EmptyString then false
      else re_match email_pattern s
  | PNonStr _ => false
  end.

(** ** The outside world *)

Inductive rdtype := MX | A.

(** Python's result of a call: a return value or a raised exception. *)
Inductive res (T : Type) :=
| Ret (v : T)
| Raise (e : exc).
Arguments Ret {T} v.
Arguments Raise {T} e.

(** How one SMTP server behaves in a session opened by [smtp_handshake]:
    [None] when the call returns normally, [Some e] when it raises [e].
    The return values of [connect], [ehlo], [helo] and [mail] are ignored by
    the code; [rcpt] returns a (code, message) pair. [s_helo] and [s_quit]
    are the outcomes of [helo()] and of the first [quit()] while the socket
    is still open. *)
Record session := {
  s_connect : option exc;
  s_ehlo : option exc;
  s_helo : option exc;
  s_mail : option exc;
  s_rcpt : res (Z * string);
  s_quit : option exc
}.

(** Once smtplib has closed the socket, every command of the session
    ([helo()], [quit()], ...) raises this. *)
Definition quit_after_close : exc :=
  SMTPServerDisconnected "please run connect() first".

(** smtplib closes the socket before it raises a connection error out of a
    command (SMTPServerDisconnected for a failed send or read, an
    SMTPResponseException for an overlong reply line); only an error raised
    before anything is sent, such as the UnicodeEncodeError of a non-ASCII
    command, leaves it open. *)
Definition closes_socket (e : exc) : bool :=
  match e with OtherExc _ => false | _ => true end.

(** The outcome of the next command of a session, after a command raised
    [e]; [next] is its outcome on an open socket. *)
Definition after_failure (e : exc) (next : option exc) : option exc :=
  if closes_socket e then Some quit_after_close else next.

(** Python binds the arguments of a call before running its body: a keyword
    argument that names no parameter raises TypeError, and nothing of the
    body runs. *)
Definition bind_kwargs (fname : string) (params kwargs : list string) : option exc :=
  match filter (fun k => negb (existsb (String.eqb k) params)) kwargs with
  | [] => None
  | k :: _ => Some (OtherExc (fname ++ "() got an unexpected keyword argument '" ++ k ++ "'"))
  end.

(** smtplib.SMTP.connect(self, host='localhost', port=0, source_address=None) *)
Definition smtp_connect_params : list string := ["host"; "port"; "source_address"].

Record env := {
  (* dns.resolver.resolve(domain, rdtype): MX answers are
     (str(record.exchange), record.preference); A answers are not inspected *)
  env_dns : rdtype -> string -> res (list (string * Z));
  (* the server at (host, port), probed for the given recipient *)
  env_smtp : string -> Z -> string -> session;
  (* the i-th draw of random.choices, i.e. floor(random() * n) *)
  env_rand : nat -> nat
}.

(** Network calls, in the order the code makes them. *)
Inductive event :=
| EvDns (t : rdtype) (domain : string)
| EvConnect (host : string) (port : Z)
| EvRcpt (host : string) (port : Z) (addr : string).

(** ** A writer-and-exception monad for the code that can raise *)

Definition M (T : Type) : Type := (list event * res T)%type.

Definition ret {T} (v : T) : M T := ([], Ret v).
Definition raise {T} (e : exc) : M T := ([], Raise e).

Definition bind {T U} (m : M T) (f : T -> M U) : M U :=
  let '(l1, r) := m in
  match r with
  | Ret v => let '(l2, r2) := f v in ((l1 ++ l2)%list, r2)
  | Raise e => (l1, Raise e)
  end.

(** [try: m except: h] *)
Definition try_except {T} (m : M T) (h : exc -> M T) : M T :=
  let '(l1, r) := m in
  match r with
  | Ret v => (l1, Ret v)
  | Raise e => let '(l2, r2) := h e in ((l1 ++ l2)%list, r2)
  end.

(** A computation that cannot raise. *)
Definition lift {T} (p : list event * T) : M T := (fst p, Ret (snd p)).

Notation "x <- m ;; f" := (bind m (fun x => f))
  (at level 61, m at next level, right associativity).

(** ** [check_dns_and_mx] (lines 51-73) *)

Definition resolve (E : env) (t : rdtype) (domain : string)
  : M (list (string * Z)) :=
  ([EvDns t domain], env_dns E t domain).

(** [mx_hosts.sort(key=lambda x: x[1])]: list.sort is a stable sort; an
    insertion sort that puts an element before the equal keys behind it. *)
Fixpoint insert_by_pref (x : string * Z) (l : list (string * Z))
  : list (string * Z) :=
  match l with
  | [] => [x]
  | y :: t => if Z.leb (snd x) (snd y) then x :: y :: t
              else y :: insert_by_pref x t
  end.

Fixpoint sort_by_pref (l : list (string * Z)) : list (string * Z) :=
  match l with
  | [] => []
  | x :: t => insert_by_pref x (sort_by_pref t)
  end.

Definition check_dns_and_mx (E : env) (domain : string)
  : M (bool * list string) :=
  try_except
    (mx_records <- resolve E MX domain ;;
     let mx_hosts := sort_by_pref mx_records in
     ret (true, map fst mx_hosts))
    (fun e =>
       match e with
       | DnsNoAnswer _ | DnsNXDOMAIN _ | DnsNoNameservers _ =>
           (* this handler's own try covers only NXDOMAIN and NoNameservers *)
           try_except
             (_ <- resolve E A domain ;; ret (false, [domain]))
             (fun e' => match e' with
                        | DnsNXDOMAIN _ | DnsNoNameservers _ => ret (false, [])
                        | _ => raise e'
                        end)
       | DnsTimeout _ | TimeoutErr _ => ret (false, [])
       | _ => ret (false, [])          (* except Exception *)
       end).

(** ** [smtp_handshake] (lines 84-187) *)

(** The [last_error] strings of the source, one constructor per f-string. *)
Inductive reason :=
| RAccepted                           (* "Accepted" *)
| RMailFrom (msg : string)            (* f"MAIL FROM failed: {e}" *)
| RRejected (code : Z) (msg : string) (* f"Rejected: {code} {msg}" *)
| RRecipientRefused (msg : string)    (* f"Recipient refused: {e}" *)
| RRcptError (msg : string)           (* f"RCPT TO error: {e}" *)
| RConnTimeout (port : Z)             (* f"Connection timeout on port {port}" *)
| RCouldNotResolve                    (* "Could not resolve host" *)
| RPort25Blocked                      (* "Port 25 blocked (AWS EC2 ...)" *)
| RConnError (port : Z) (msg : string)  (* f"Connection error on port {port}: {e}" *)
| RServerDisconnected (port : Z)      (* f"Server disconnected on port {port}" *)
| RSmtpError (port : Z) (msg : string)  (* f"SMTP error on port {port}: {e}" *)
| RAllFailed                          (* "All connection attempts failed" *)
| RNoMxHosts.                         (* "No MX hosts available" (verify_email) *)

Definition SMTP_PORT : Z := 25.
Definition SMTP_ESMTP_PORT : Z := 587.
Definition ports_to_try : list Z := [SMTP_PORT; SMTP_ESMTP_PORT; 465%Z].

(** What one iteration of the port loop ends with: [continue] with the new
    [last_error], [break] with it, or [return]. *)
Inductive step :=
| SContinue (last_error : option reason)
| SBreak (last_error : option reason)
| SReturn (accepted : bool) (msg : reason).

(** The outer [except] clauses (lines 145-184), in order. Their guarded
    [try: server.quit() except: pass] has no observable effect. *)
Definition outer_handler (port : Z) (e : exc) : step :=
  if is_timeout e then SContinue (Some (RConnTimeout port))
  else if is_gaierror e then SBreak (Some RCouldNotResolve)
  else if is_oserror e then
    let error_str := exc_str e in
    if Z.eqb port 25%Z && (str_contains "Connection refused" error_str
                         || str_contains "errno 111" error_str)
    then SContinue (Some RPort25Blocked)
    else SContinue (Some (RConnError port error_str))
  else if is_server_disconnected e then SContinue (Some (RServerDisconnected port))
  else SContinue (Some (RSmtpError port (exc_str e))).

(** The [except] clauses of the RCPT TO block (lines 136-143); [q] is the
    outcome of the unguarded [server.quit()] they call. A failing quit
    raises out of the handler, into the outer clauses. *)
Definition rcpt_handler (port : Z) (e : exc) (q : option exc) : step :=
  if is_recipients_refused e then
    match q with
    | Some e' => outer_handler port e'
    | None => SContinue (Some (RRecipientRefused (exc_str e)))
    end
  else
    match q with
    | Some e' => outer_handler port e'
    | None => SContinue (Some (RRcptError (exc_str e)))
    end.

Definition accepting_code (code : Z) : bool :=
  Z.eqb code 250%Z || Z.eqb code 251%Z || Z.eqb code 252%Z.

(** The body of [for port in ports_to_try] (lines 97-184).
    [server.connect(mx_host, port, timeout=SMTP_CONNECT_TIMEOUT)] passes a
    keyword that smtplib's connect does not take; the TypeError it raises
    (an Exception, none of the other classes) reaches the last outer
    clause, whose guarded quit() has no effect. *)
Definition try_port (E : env) (mx_host email : string) (port : Z)
  (last_error : option reason) : list event * step :=
  let s := env_smtp E mx_host port email in
  match bind_kwargs "SMTP.connect" smtp_connect_params ["timeout"] with
  | Some e => ([], outer_handler port e)
  | None =>
  let l0 := [EvConnect mx_host port] in
  match s_connect s with
  | Some e => (l0, outer_handler port e)
  | None =>
      (* None: greeted; Some q: EHLO and HELO raised, q the outcome of the
         unguarded server.quit() *)
      let greeting : option (option exc) :=
        match s_ehlo s with
        | None => None
        | Some e1 =>
            match after_failure e1 (s_helo s) with
            | None => None
            | Some e2 => Some (after_failure e2 (s_quit s))
            end
        end in
      match greeting with
      | Some (Some e') => (l0, outer_handler port e')
      | Some None => (l0, SContinue last_error)
      | None =>
        match s_mail s with
        | Some e =>
            match after_failure e (s_quit s) with
            | Some e' => (l0, outer_handler port e')
            | None => (l0, SContinue (Some (RMailFrom (exc_str e))))
            end
        | None =>
            let l1 := (l0 ++ [EvRcpt mx_host port email])%list in
            match s_rcpt s with
            | Ret (code, message) =>
                if accepting_code code then
                  match s_quit s with
                  | None => (l1, SReturn true RAccepted)
                  | Some e' => (l1, rcpt_handler port e' (Some quit_after_close))
                  end
                else
                  match s_quit s with
                  | None => (l1, SContinue (Some (RRejected code message)))
                  | Some e' => (l1, rcpt_handler port e' (Some quit_after_close))
                  end
            | Raise e => (l1, rcpt_handler port e (after_failure e (s_quit s)))
            end
        end
      end
  end
  end.

Definition final_error (last_error : option reason) : reason :=
  match last_error with Some r => r | None => RAllFailed end.

Fixpoint port_loop (E : env) (mx_host email : string) (ports : list Z)
  (last_error : option reason) : list event * (bool * reason) :=
  match ports with
  | [] => ([], (false, final_error last_error))
  | port :: ps =>
      let '(l1, st) := try_port E mx_host email port last_error in
      match st with
      | SReturn b m => (l1, (b, m))
      | SBreak le => (l1, (false, final_error le))
      | SContinue le =>
          let '(l2, r) := port_loop E mx_host email ps le in ((l1 ++ l2)%list, r)
      end
  end.

(** The [timeout] argument is never used by the source. *)
Definition smtp_handshake (E : env) (mx_host email : string)
  : list event * (bool * reason) :=
  port_loop E mx_host email ports_to_try None.

(** ** [generate_random_email] and [check_catch_all] (lines 76-81, 190-200) *)

(** string.ascii_lowercase + string.digits *)
Definition random_population : string :=
  "abcdefghijklmnopqrstuvwxyz0123456789".

(** ''.join(random.choices(population, k=k)): the i-th character is
    population[floor(random() * len(population))], drawn from [env_rand]. *)
Fixpoint random_choices (E : env) (pop : list ascii) (i k : nat) : string :=
  match k with
  | O => EmptyString
  | S k' => String (nth (Nat.modulo (env_rand E i) (length pop)) pop "000"%char)
                   (random_choices E pop (S i) k')
  end.

Definition random_string (E : env) : string :=
  random_choices E (list_ascii_of_string random_population) 0 12.

Definition generate_random_email (E : env) (domain : string) : string :=
  random_string E ++ "@" ++ domain.

Definition check_catch_all (E : env) (domain : string) (mx_hosts : list string)
  : list event * bool :=
  match mx_hosts with
  | [] => ([], false)
  | first :: _ =>
      let test_email := generate_random_email E domain in
      let '(l, (accepted, _)) := smtp_handshake E first test_email in
      (l, accepted)
  end.

(** ** [verify_email] (lines 203-267) *)

Inductive status := Invalid | Valid | Risky.

(** The result dictionary. *)
Record result := {
  r_email : pyval;
  r_syntax : bool;
  r_mx : bool;
  r_smtp : bool;
  r_catch : bool;
  r_status : status
}.

Definition mk_result (email : pyval) (syntax mx smtp_accepts catch_all : bool)
  (st : status) : result :=
  {| r_email := email; r_syntax := syntax; r_mx := mx;
     r_smtp := smtp_accepts; r_catch := catch_all; r_status := st |}.

(** [for mx_host in mx_hosts[:3]: ... if accepted: break] *)
Fixpoint try_hosts (E : env) (hosts : list string) (email : string)
  (acc : bool * reason) : list event * (bool * reason) :=
  match hosts with
  | [] => ([], acc)
  | mx_host :: rest =>
      let '(l1, (accepted, error_msg)) := smtp_handshake E mx_host email in
      if accepted then (l1, (accepted, error_msg))
      else let '(l2, r) := try_hosts E rest email (accepted, error_msg) in
           ((l1 ++ l2)%list, r)
  end.

Notation "' p <- m ;; f" := (bind m (fun x => match x with p => f end))
  (at level 61, p pattern, m at next level, right associativity).

Definition verify_email (E : env) (email : pyval) : M result :=
  if negb (validate_email_syntax email) then
    ret (mk_result email false false false false Invalid)
  else
    match email with
    | PNonStr _ =>
        (* email.split: a non-str has no such attribute (never reached, as
           validate_email_syntax rejects every non-str) *)
        raise (OtherExc "AttributeError: object has no attribute 'split'")
    | PStr s =>
        match nth_error (py_split "@" s) 1 with
        | None => ret (mk_result email true false false false Invalid)  (* IndexError *)
        | Some domain =>
            '(has_mx, mx_hosts) <- check_dns_and_mx E domain ;;
            match mx_hosts with
            | [] => ret (mk_result email true false false false Invalid)
            | _ :: _ =>
                '(accepted, error_msg) <-
                  lift (try_hosts E (firstn 3 mx_hosts) s (false, RNoMxHosts)) ;;
                if negb accepted then
                  ret (mk_result email true true accepted false Invalid)
                else
                  catch_all <- lift (check_catch_all E domain mx_hosts) ;;
                  ret (mk_result email true true accepted catch_all
                         (if catch_all then Risky else Valid))
            end
        end
    end.

(** ** The Flask endpoint of [app.py] *)

(** A JSON document as request.get_json() returns it: json.loads gives an
    int for a number without fraction or exponent and a float (an IEEE
    double, also for NaN and Infinity) otherwise. *)
#[local] Set Warnings "-register-all".
Inductive json :=
| JNull
| JBool (b : bool)
| JNum (n : Z)
| JFloat (f : float)
| JStr (s : string)
| JArr (xs : list json)
| JObj (kvs : list (string * json)).

(** Python truthiness of the decoded value ([not data], [not email]). *)
Definition json_truthy (j : json) : bool :=
  match j with
  | JNull => false
  | JBool b => b
  | JNum n => negb (Z.eqb n 0)
  | JFloat f => negb (PrimFloat.eqb f 0%float)     (* 0.0 and -0.0 are falsy *)
  | JStr s => negb (String.eqb s EmptyString)
  | JArr xs => match xs with [] => false | _ => true end
  | JObj kvs => match kvs with [] => false | _ => true end
  end.

Definition json_type_name (j : json) : string :=
  match j with
  | JNull => "NoneType"
  | JBool _ => "bool"
  | JNum _ => "int"
  | JFloat _ => "float"
  | JStr _ => "str"
  | JArr _ => "list"
  | JObj _ => "dict"
  end.

(** json.loads keeps the last of duplicate keys. *)
Definition obj_lookup (k : string) (kvs : list (string * json)) : option json :=
  fold_left (fun acc kv => if String.eqb (fst kv) k then Some (snd kv) else acc)
            kvs None.

(** [data.get(key)]: None when the key is missing; only a dict has [get]. *)
Definition json_get (data : json) (k : string) : res json :=
  match data with
  | JObj kvs => Ret (match obj_lookup k kvs with Some v => v | None => JNull end)
  | _ => Raise (OtherExc ("'" ++ json_type_name data ++ "' object has no attribute 'get'"))
  end.

(** The JSON bodies the endpoints send. *)
Inductive body :=
| BError (error : string)                      (* {'error': ...} *)
| BInternal (message : string)                 (* {'error': 'Internal server error', 'message': ...} *)
| BResult (r : result)                         (* jsonify(result) *)
| BHealth.                                     (* {'status': 'ok', 'service': 'email_verifier'} *)

Record response := { resp_code : Z; resp_body : body }.

(** [health_check] (app.py lines 18-21). *)
Definition health_check : response := {| resp_code := 200; resp_body := BHealth |}.

Definition internal_error (e : exc) : response :=
  {| resp_code := 500; resp_body := BInternal (exc_str e) |}.

(** [verify] (app.py lines 24-53); [request] is the outcome of
    request.get_json(), which raises on a body that is not JSON. Logging
    is left out. *)
Definition verify (E : env) (request : res json) : list event * response :=
  match request with
  | Raise e => ([], internal_error e)
  | Ret data =>
      if negb (json_truthy data) then
        ([], {| resp_code := 400; resp_body := BError "No JSON data provided" |})
      else
        match json_get data "email" with
        | Raise e => ([], internal_error e)
        | Ret email =>
            if negb (json_truthy email) then
              ([], {| resp_code := 400; resp_body := BError "Email field is required" |})
            else
              match email with
              | JStr s =>
                  let '(l, r) := verify_email E (PStr s) in
                  match r with
                  | Ret result => (l, {| resp_code := 200; resp_body := BResult result |})
                  | Raise e => (l, internal_error e)
                  end
              | _ => ([], {| resp_code := 400; resp_body := BError "Email must be a string" |})
              end
        end
  end.

(** ** Definitions used in the statements of the properties *)

(** The verdict as a function of the four booleans (spec, section 4.5). *)
Definition status_of (syntax mx smtp_accepts catch_all : bool) : status :=
  if syntax && mx && smtp_accepts then (if catch_all then Risky else Valid)
  else Invalid.

Definition result_invariant (email : pyval) (r : result) : Prop :=
  r_email r = email /\
  r_status r = status_of (r_syntax r) (r_mx r) (r_smtp r) (r_catch r) /\
  (r_mx r = true -> r_syntax r = true) /\
  (r_smtp r = true -> r_mx r = true) /\
  (r_catch r = true -> r_smtp r = true).

Definition pref_le (a b : string * Z) : Prop := (snd a <= snd b)%Z.

Definition has_pref (k : Z) (x : string * Z) : bool := Z.eqb (snd x) k.

Definition event_host (ev : event) : option string :=
  match ev with
  | EvDns _ _ => None
  | EvConnect h _ => Some h
  | EvRcpt h _ _ => Some h
  end.

Definition probe_ok (E : env) (email host : string) : bool :=
  fst (snd (smtp_handshake E host email)).

(** The hosts a loop that stops at the first acceptance probes. *)
Fixpoint probed_until_accept (E : env) (email : string) (hosts : list string)
  : list string :=
  match hosts with
  | [] => []
  | h :: t => if probe_ok E email h then [h] else h :: probed_until_accept E email t
  end.

(** What the pattern accepts, written out: a non-empty local part over
    [A-Za-z0-9._%+-], "@", a non-empty run of [A-Za-z0-9.-], ".", at least
    two letters, and at most one final newline. *)
Definition email_shape (cs : list ascii) : Prop :=
  exists l d t e,
    cs = (l ++ ["@"%char] ++ d ++ ["."%char] ++ t ++ e)%list /\
    1 <= length l /\ forallb local_class l = true /\
    1 <= length d /\ forallb domain_class d = true /\
    2 <= length t /\ forallb is_alpha t = true /\
    (e = [] \/ e = ["010"%char]).

(** The same shape with nothing after the final letters. *)
Definition email_shape_strict (cs : list ascii) : Prop :=
  exists l d t,
    cs = (l ++ ["@"%char] ++ d ++ ["."%char] ++ t)%list /\
    1 <= length l /\ forallb local_class l = true /\
    1 <= length d /\ forallb domain_class d = true /\
    2 <= length t /\ forallb is_alpha t = true.

Definition ends_in_newline (s : string) : bool :=
  match rev (list_ascii_of_string s) with
  | c :: _ => Ascii.eqb c "010"%char
  | [] => false
  end.

Definition connect_ports (log : list event) : list Z :=
  flat_map (fun ev => match ev with EvConnect _ p => [p] | _ => [] end) log.

(** A server that would complete an accepting handshake: connect, EHLO and
    MAIL FROM complete, RCPT TO answers 250/251/252 and QUIT completes. *)
Definition accepting_handshake (s : session) : Prop :=
  s_connect s = None /\ s_ehlo s = None /\ s_mail s = None /\
  (exists code msg, s_rcpt s = Ret (code, msg) /\ accepting_code code = true) /\
  s_quit s = None.

(** The text of the TypeError that [server.connect(mx_host, port,
    timeout=...)] raises. *)
Definition connect_type_error : string :=
  "SMTP.connect() got an unexpected keyword argument 'timeout'".

Definition dns_event (ev : event) : Prop :=
  match ev with EvDns _ _ => True | _ => False end.

Definition mx_fallback_error (e : exc) : bool :=
  match e with DnsNoAnswer _ | DnsNXDOMAIN _ | DnsNoNameservers _ => true | _ => false end.

Definition a_handled_error (e : exc) : bool :=
  match e with DnsNXDOMAIN _ | DnsNoNameservers _ => true | _ => false end.

Definition probe_event_ok (h e : string) (ev : event) : Prop :=
  match ev with
  | EvConnect h' _ => h' = h
  | EvRcpt h' _ a => h' = h /\ a = e
  | EvDns _ _ => False
  end.

(** ** Sample worlds *)

(** The texts dnspython gives these exceptions (their str()). *)
Definition rdtype_name (t : rdtype) : string := match t with MX => "MX" | A => "A" end.

Definition nxdomain (d : string) : exc :=
  DnsNXDOMAIN ("The DNS query name does not exist: " ++ d ++ ".").

Definition no_answer (t : rdtype) (d : string) : exc :=
  DnsNoAnswer ("The DNS response does not contain an answer to the question: "
               ++ d ++ ". IN " ++ rdtype_name t).

Definition session_with (connect : option exc) (rcpt : res (Z * string))
  (quit : option exc) : session :=
  {| s_connect := connect; s_ehlo := None; s_helo := None; s_mail := None;
     s_rcpt := rcpt; s_quit := quit |}.

Definition accepting_session : session := session_with None (Ret (250%Z, "2.1.5 OK")) None.
Definition rejecting_session : session :=
  session_with None (Ret (550%Z, "5.1.1 User unknown")) None.
Definition refused_session : session :=
  session_with (Some (ConnRefused "[Errno 111] Connection refused")) (Ret (0%Z, "")) None.

Definition three_mx : list (string * Z) :=
  [("mx20.example.com.", 20%Z); ("mx10.example.com.", 10%Z); ("mx30.example.com.", 30%Z)].

(** example.com has three MX hosts; each accepts only "user@example.com". *)
Definition world_valid : env :=
  {| env_dns := fun t d => match t with
                           | MX => if String.eqb d "example.com" then Ret three_mx
                                   else Raise (nxdomain d)
                           | A => Raise (nxdomain d)
                           end;
     env_smtp := fun h p e => if String.eqb e "user@example.com" then accepting_session
                              else rejecting_session;
     env_rand := fun i => i |}.

(** ipv6only.example has neither MX nor A records (NoAnswer for both). *)
Definition world_no_a_record : env :=
  {| env_dns := fun t d => Raise (no_answer t d);
     env_smtp := fun _ _ _ => accepting_session;
     env_rand := fun i => i |}.

(** example.com: four hosts, all rejecting the recipient. *)
Definition world_all_reject : env :=
  {| env_dns := fun _ _ => Ret [("a.", 10%Z); ("b.", 20%Z); ("c.", 30%Z); ("d.", 40%Z)];
     env_smtp := fun _ _ _ => rejecting_session;
     env_rand := fun i => i |}.

(** Port 25 refuses, port 587 accepts. *)
Definition world_port25_refused : env :=
  {| env_dns := fun _ _ => Ret [("mx.example.com.", 10%Z)];
     env_smtp := fun h p e => if Z.eqb p 25 then refused_session else accepting_session;
     env_rand := fun i => i |}.

Definition world_a_fallback : env :=
  {| env_dns := fun t d => match t with MX => Raise (no_answer MX d) | A => Ret [] end;
     env_smtp := fun _ _ _ => accepting_session;
     env_rand := fun i => i |}.

(** * Properties *)

(** ** Evaluation on sample inputs *)

Example validate_ex1 : validate_email_syntax (PStr "john.doe@example.com") = true.
Proof. reflexivity. Qed.
Example validate_ex2 : validate_email_syntax (PStr "john@example") = false.
Proof. reflexivity. Qed.
Example validate_ex3 : validate_email_syntax (PStr "a@b..co") = true.
Proof. reflexivity. Qed.
Example validate_ex4 : validate_email_syntax (PStr ("a@b.co" ++ String "010" "")) = true.
Proof. reflexivity. Qed.

(** The servers of world_valid accept the address, but no session is ever
    opened: the verdict is invalid after the MX query alone. *)
Example world_valid_verify :
  verify_email world_valid (PStr "user@example.com")
  = ([EvDns MX "example.com"],
     Ret (mk_result (PStr "user@example.com") true true false false Invalid)).
Proof. vm_compute. reflexivity. Qed.

Example world_valid_random :
  generate_random_email world_valid "example.com" = "abcdefghijkl@example.com".
Proof. reflexivity. Qed.

(** ** Monad lemmas *)

Lemma bind_Ret {T U} (m : M T) (f : T -> M U) l r :
  bind m f = (l, Ret r) ->
  exists v l1 l2, m = (l1, Ret v) /\ f v = (l2, Ret r) /\ l = (l1 ++ l2)%list.
Proof.
  unfold bind. destruct m as [l1 [v|e]].
  - destruct (f v) as [l2 r2] eqn:Hf. intros H. inversion H; subst.
    exists v, l1, l2. auto.
  - intros H. discriminate.
Qed.

Lemma bind_Ret_eq {T U} l1 (v : T) (f : T -> M U) :
  bind (l1, Ret v) f = ((l1 ++ fst (f v))%list, snd (f v)).
Proof. unfold bind. destruct (f v); reflexivity. Qed.

(** ** Results of verify_email *)

Lemma verify_email_returns_invariant E v l r :
  verify_email E v = (l, Ret r) -> result_invariant v r.
Proof.
  unfold verify_email.
  destruct (validate_email_syntax v) eqn:Hv; cbn [negb].
  2:{ intros H. inversion H; subst. unfold result_invariant; cbn; intuition. }
  destruct v as [s|b].
  2:{ intros H. discriminate. }
  destruct (nth_error (py_split "@" s) 1) as [d|].
  2:{ intros H. inversion H; subst. unfold result_invariant; cbn; intuition. }
  intros H. apply bind_Ret in H. destruct H as [[has hosts] [l1 [l2 [_ [H _]]]]].
  destruct hosts as [|h t].
  { inversion H; subst. unfold result_invariant; cbn; intuition. }
  apply bind_Ret in H. destruct H as [[acc msg] [l3 [l4 [_ [H _]]]]].
  destruct acc; cbn [negb] in H.
  2:{ inversion H; subst. unfold result_invariant; cbn; intuition. }
  apply bind_Ret in H. destruct H as [ca [l5 [l6 [_ [H _]]]]].
  inversion H; subst. unfold result_invariant, status_of; cbn.
  destruct ca; intuition.
Qed.

(** C9: a string rejected by the syntax check yields the all-false
    "invalid" verdict with no network call at all; the outcome does not
    depend on the resolver, the SMTP servers or the random generator. *)
Theorem verify_email_rejected_syntax_offline (E1 E2 : env) (v : pyval) :
  validate_email_syntax v = false ->
  verify_email E1 v = ([], Ret (mk_result v false false false false Invalid)) /\
  verify_email E1 v = verify_email E2 v.
Proof.
  intros Hv. unfold verify_email. rewrite Hv. split; reflexivity.
Qed.

Lemma verify_email_rejected_syntax_offline_witness :
  validate_email_syntax (PStr "no-at-sign.example.com") = false /\
  verify_email world_valid (PStr "no-at-sign.example.com")
  = ([], Ret (mk_result (PStr "no-at-sign.example.com") false false false false Invalid)) /\
  verify_email world_valid (PStr "no-at-sign.example.com")
  = verify_email world_valid (PStr "no-at-sign.example.com").
Proof.
  split; [reflexivity|].
  apply (verify_email_rejected_syntax_offline world_valid world_valid).
  reflexivity.
Defined.

(** C10: whenever verify_email returns, the email field of its result is
    the input value itself, unchanged. *)
Theorem verify_email_echoes_input (E : env) (v : pyval) (l : list event) (r : result) :
  verify_email E v = (l, Ret r) -> r_email r = v.
Proof.
  intros H. apply verify_email_returns_invariant in H. apply H.
Qed.

Lemma verify_email_echoes_input_witness :
  r_email (mk_result (PStr "user@example.com") true true false false Invalid)
  = PStr "user@example.com".
Proof.
  apply (verify_email_echoes_input world_valid (PStr "user@example.com")
           (fst (verify_email world_valid (PStr "user@example.com")))).
  vm_compute. reflexivity.
Defined.

(** C4: whenever verify_email returns, its status is [status_of] the four
    booleans (risky iff syntax, mx, smtp_accepts and catch_all all hold;
    valid iff the first three hold and catch_all does not; invalid
    otherwise), and a field after a short-circuit point keeps its default
    false value: mx only after syntax, smtp_accepts only after mx,
    catch_all only after smtp_accepts. *)
Theorem verify_email_status_invariant (E : env) (v : pyval) (l : list event) (r : result) :
  verify_email E v = (l, Ret r) ->
  r_status r = status_of (r_syntax r) (r_mx r) (r_smtp r) (r_catch r) /\
  (r_mx r = true -> r_syntax r = true) /\
  (r_smtp r = true -> r_mx r = true) /\
  (r_catch r = true -> r_smtp r = true).
Proof.
  intros H. apply verify_email_returns_invariant in H. apply H.
Qed.

Lemma verify_email_status_invariant_witness :
  Invalid = status_of true true false false /\
  (true = true -> true = true) /\ (false = true -> true = true) /\
  (false = true -> false = true).
Proof.
  apply (verify_email_status_invariant world_valid (PStr "user@example.com")
           (fst (verify_email world_valid (PStr "user@example.com")))
           (mk_result (PStr "user@example.com") true true false false Invalid)).
  vm_compute. reflexivity.
Defined.

(** ** The preference sort of check_dns_and_mx *)

Lemma insert_by_pref_perm x l : Permutation (insert_by_pref x l) (x :: l).
Proof.
  induction l as [|y t IH]; cbn; [constructor; constructor|].
  destruct (Z.leb (snd x) (snd y)); [reflexivity|].
  rewrite IH. constructor.
Qed.

Lemma sort_by_pref_perm l : Permutation (sort_by_pref l) l.
Proof.
  induction l as [|x t IH]; cbn; [constructor|].
  rewrite insert_by_pref_perm. constructor. exact IH.
Qed.

Lemma insert_by_pref_hdrel y x l :
  pref_le y x -> HdRel pref_le y l -> HdRel pref_le y (insert_by_pref x l).
Proof.
  intros Hyx Hl. destruct l as [|z t]; cbn.
  - constructor. exact Hyx.
  - destruct (Z.leb (snd x) (snd z)); constructor; [exact Hyx|].
    inversion Hl; assumption.
Qed.

Lemma insert_by_pref_sorted x l :
  Sorted pref_le l -> Sorted pref_le (insert_by_pref x l).
Proof.
  induction l as [|y t IH]; intros Hs; cbn.
  - repeat constructor.
  - destruct (Z.leb (snd x) (snd y)) eqn:Hxy.
    + constructor; [exact Hs|]. constructor. unfold pref_le. apply Z.leb_le; exact Hxy.
    + inversion Hs as [|? ? Ht Hhd]; subst. constructor; [apply IH, Ht|].
      apply insert_by_pref_hdrel; [|exact Hhd].
      unfold pref_le. apply Z.leb_gt in Hxy. lia.
Qed.

Lemma sort_by_pref_sorted l : Sorted pref_le (sort_by_pref l).
Proof.
  induction l as [|x t IH]; cbn; [constructor|].
  apply insert_by_pref_sorted, IH.
Qed.

(** Inserting [x] keeps, for every preference value, the order of the
    records with that value, with [x] in front of those behind it. *)
Lemma insert_by_pref_stable k x l :
  filter (has_pref k) (insert_by_pref x l) = filter (has_pref k) (x :: l).
Proof.
  induction l as [|y t IH]; cbn; [reflexivity|].
  destruct (Z.leb (snd x) (snd y)) eqn:Hxy; [reflexivity|].
  apply Z.leb_gt in Hxy. cbn. rewrite IH. cbn. unfold has_pref.
  destruct (Z.eqb_spec (snd x) k), (Z.eqb_spec (snd y) k); try reflexivity.
  lia.
Qed.

Lemma sort_by_pref_stable k l :
  filter (has_pref k) (sort_by_pref l) = filter (has_pref k) l.
Proof.
  induction l as [|x t IH]; cbn; [reflexivity|].
  rewrite insert_by_pref_stable. cbn. rewrite IH. reflexivity.
Qed.

(** C7: when the MX query answers, check_dns_and_mx returns hasMx = true and
    the exchange names ordered by a stable ascending sort on preference: the
    sorted records are ordered by preference, are a permutation of the
    answer (duplicates kept), and for every preference value the records
    with that value keep their order from the answer. Preferences
    [20, 10, 30] give the 10-host, then the 20-host, then the 30-host. *)
Theorem check_dns_and_mx_sorted (E : env) (d : string) (recs : list (string * Z)) :
  env_dns E MX d = Ret recs ->
  check_dns_and_mx E d = ([EvDns MX d], Ret (true, map fst (sort_by_pref recs))) /\
  Sorted pref_le (sort_by_pref recs) /\
  Permutation (sort_by_pref recs) recs /\
  (forall k, filter (has_pref k) (sort_by_pref recs) = filter (has_pref k) recs) /\
  (forall h20 h10 h30, recs = [(h20, 20%Z); (h10, 10%Z); (h30, 30%Z)] ->
     map fst (sort_by_pref recs) = [h10; h20; h30]).
Proof.
  intros Hmx. split; [|split; [|split; [|split]]].
  - unfold check_dns_and_mx, resolve. rewrite Hmx. reflexivity.
  - apply sort_by_pref_sorted.
  - apply sort_by_pref_perm.
  - intros k. apply sort_by_pref_stable.
  - intros h20 h10 h30 ->. reflexivity.
Qed.

Lemma check_dns_and_mx_sorted_witness :
  check_dns_and_mx world_valid "example.com"
  = ([EvDns MX "example.com"],
     Ret (true, ["mx10.example.com."; "mx20.example.com."; "mx30.example.com."])).
Proof.
  destruct (check_dns_and_mx_sorted world_valid "example.com" three_mx eq_refl)
    as [H _].
  rewrite H. reflexivity.
Defined.

(** ** Resolver failures during the A-record fallback *)

(** C1 (failing input): when the MX query answers NoAnswer and the fallback
    A query also raises NoAnswer, the exception escapes check_dns_and_mx
    (the handler's own try catches only NXDOMAIN and NoNameservers), and
    verify_email raises it too instead of returning a result. *)
Theorem check_dns_and_mx_a_noanswer_escapes :
  check_dns_and_mx world_no_a_record "ipv6only.example"
  = ([EvDns MX "ipv6only.example"; EvDns A "ipv6only.example"], Raise (no_answer A "ipv6only.example")) /\
  verify_email world_no_a_record (PStr "user@ipv6only.example")
  = ([EvDns MX "ipv6only.example"; EvDns A "ipv6only.example"], Raise (no_answer A "ipv6only.example")).
Proof. split; vm_compute; reflexivity. Qed.

(** ** Facts about smtp_handshake *)

(** Every port ends in the last outer clause: the connect call raises
    TypeError before any connection is made. *)
Lemma try_port_type_error E h e port le :
  try_port E h e port le = ([], SContinue (Some (RSmtpError port connect_type_error))).
Proof. reflexivity. Qed.

Lemma port_loop_type_error E h e ports le :
  fst (port_loop E h e ports le) = [] /\ fst (snd (port_loop E h e ports le)) = false.
Proof.
  revert le. induction ports as [|p ps IH]; intros le; cbn [port_loop];
    [split; reflexivity|].
  rewrite try_port_type_error.
  destruct (IH (Some (RSmtpError p connect_type_error))) as [H1 H2].
  destruct (port_loop E h e ps _) as [l2 r]. cbn in *. subst. split; [reflexivity|exact H2].
Qed.

Lemma smtp_handshake_eval E h e :
  smtp_handshake E h e = ([], (false, RSmtpError 465 connect_type_error)).
Proof. reflexivity. Qed.

Lemma port_loop_accepted E h e ports le l b m :
  port_loop E h e ports le = (l, (b, m)) -> b = true -> m = RAccepted.
Proof.
  intros H ->. destruct (port_loop_type_error E h e ports le) as [_ Hb].
  rewrite H in Hb. discriminate.
Qed.

Lemma port_loop_log_host E h e ports le :
  Forall (fun ev => event_host ev = Some h) (fst (port_loop E h e ports le)).
Proof. rewrite (proj1 (port_loop_type_error E h e ports le)). constructor. Qed.

(** C5 (failing input): port 25 of mx.example.com. refuses connections and
    port 587 would complete an accepting handshake, yet smtp_handshake
    returns (False, "SMTP error on port 465: SMTP.connect() got an
    unexpected keyword argument 'timeout'") without opening a connection:
    [server.connect(mx_host, port, timeout=...)] passes a keyword smtplib's
    connect does not take, so each of the three ports ends in the TypeError
    and the loop runs out. The same holds for every host, address and set
    of servers. *)
Theorem smtp_handshake_connect_type_error :
  s_connect (env_smtp world_port25_refused "mx.example.com." 25 "user@example.com")
  = Some (ConnRefused "[Errno 111] Connection refused") /\
  accepting_handshake (env_smtp world_port25_refused "mx.example.com." 587 "user@example.com") /\
  smtp_handshake world_port25_refused "mx.example.com." "user@example.com"
  = ([], (false, RSmtpError 465 connect_type_error)) /\
  (forall E h e, smtp_handshake E h e = ([], (false, RSmtpError 465 connect_type_error))).
Proof.
  split; [reflexivity|]. split.
  - split; [reflexivity|]. split; [reflexivity|]. split; [reflexivity|].
    split; [|reflexivity]. exists 250%Z, "2.1.5 OK". split; reflexivity.
  - split; [reflexivity|]. intros E h e. apply smtp_handshake_eval.
Qed.


Lemma random_choices_length E pop i k : String.length (random_choices E pop i k) = k.
Proof.
  revert i. induction k as [|k IH]; intros i; cbn; [reflexivity|]. rewrite IH. reflexivity.
Qed.

Lemma random_choices_in_pop E pop i k c :
  pop <> [] -> In c (list_ascii_of_string (random_choices E pop i k)) -> In c pop.
Proof.
  intros Hpop. revert i. induction k as [|k IH]; intros i; cbn; [tauto|].
  intros [<- | H]; [|eapply IH; exact H].
  apply nth_In, Nat.mod_upper_bound. destruct pop; [congruence|cbn; lia].
Qed.

(** C8: with no hosts, check_catch_all returns false and makes no network
    call. Otherwise it builds the mailbox [random_string E] (12 characters
    from a-z0-9) at [domain], runs smtp_handshake for it against the first
    host only, and returns that probe's accepted flag, which is true exactly
    when the probe's outcome is (true, "Accepted"). *)
Theorem check_catch_all_spec (E : env) (domain : string) :
  check_catch_all E domain [] = ([], false) /\
  forall first rest,
    let probe := smtp_handshake E first (random_string E ++ "@" ++ domain) in
    check_catch_all E domain (first :: rest) = (fst probe, fst (snd probe)) /\
    (fst (snd probe) = true <-> snd probe = (true, RAccepted)) /\
    Forall (fun ev => event_host ev = Some first) (fst probe) /\
    String.length (random_string E) = 12 /\
    (forall c, In c (list_ascii_of_string (random_string E)) ->
               In c (list_ascii_of_string random_population)).
Proof.
  split; [reflexivity|]. intros first rest probe.
  split; [|split; [|split; [|split]]].
  - unfold check_catch_all, generate_random_email, probe.
    destruct (smtp_handshake E first _) as [l [a m]]. reflexivity.
  - unfold probe, smtp_handshake.
    destruct (port_loop E first _ ports_to_try None) as [l [a m]] eqn:H. cbn.
    split; [|intros Heq; inversion Heq; reflexivity].
    intros ->. f_equal. eapply port_loop_accepted; eauto.
  - apply port_loop_log_host.
  - apply random_choices_length.
  - intros c. apply random_choices_in_pop. discriminate.
Qed.

(** ** The host loop of verify_email *)

Lemma try_hosts_spec E hosts email m :
  try_hosts E hosts email (false, m)
  = (concat (map (fun h => fst (smtp_handshake E h email))
                 (probed_until_accept E email hosts)),
     (existsb (probe_ok E email) hosts,
      snd (snd (try_hosts E hosts email (false, m))))).
Proof.
  revert m. induction hosts as [|h t IH]; intros m; cbn -[smtp_handshake]; [reflexivity|].
  unfold probe_ok. destruct (smtp_handshake E h email) as [l1 [a msg]] eqn:Hs.
  destruct a; cbn -[smtp_handshake]; rewrite Hs; cbn -[smtp_handshake].
  - rewrite app_nil_r. reflexivity.
  - rewrite IH. reflexivity.
Qed.

Lemma probed_until_accept_prefix E email hosts :
  exists rest, hosts = (probed_until_accept E email hosts ++ rest)%list.
Proof.
  induction hosts as [|h t [rest IH]]; cbn [probed_until_accept]; [exists []; reflexivity|].
  destruct (probe_ok E email h); [exists t; reflexivity|].
  exists rest. cbn. rewrite <- IH. reflexivity.
Qed.

(** C6: for an address with valid syntax whose domain resolves to a non-empty
    host list, verify_email probes, after the DNS calls and in resolved
    order, exactly the hosts among the first three up to and including the
    first that accepts (a prefix of the first three); smtp_accepts is
    whether one of the first three accepts; when none does, the status is
    invalid and no further network call follows, whatever hosts come after
    the third. *)
Theorem verify_email_first_three_hosts (E : env) (s d : string) (has_mx : bool)
  (hosts : list string) (l0 : list event) :
  validate_email_syntax (PStr s) = true ->
  nth_error (py_split "@" s) 1 = Some d ->
  check_dns_and_mx E d = (l0, Ret (has_mx, hosts)) ->
  hosts <> [] ->
  (exists rest, firstn 3 hosts = (probed_until_accept E s (firstn 3 hosts) ++ rest)%list) /\
  exists r l_rest,
    verify_email E (PStr s)
    = ((l0 ++ concat (map (fun h => fst (smtp_handshake E h s))
                          (probed_until_accept E s (firstn 3 hosts))) ++ l_rest)%list,
       Ret r) /\
    r_mx r = true /\
    r_smtp r = existsb (probe_ok E s) (firstn 3 hosts) /\
    (r_smtp r = false -> r_status r = Invalid /\ r_catch r = false /\ l_rest = []).
Proof.
  intros Hv Hd Hc Hne. split; [apply probed_until_accept_prefix|].
  unfold verify_email. rewrite Hv. cbn [negb]. rewrite Hd, Hc, bind_Ret_eq.
  destruct hosts as [|h t]; [congruence|]. cbn [fst snd].
  unfold lift. rewrite (try_hosts_spec E (firstn 3 (h :: t)) s RNoMxHosts).
  rewrite bind_Ret_eq. cbn [fst snd].
  destruct (existsb (probe_ok E s) (firstn 3 (h :: t))) eqn:Hex; cbn [negb].
  - rewrite bind_Ret_eq. cbn [fst snd].
    eexists _, _. split; [reflexivity|].
    split; [reflexivity|split; [reflexivity|discriminate]].
  - eexists _, []. split; [cbn; rewrite !app_nil_r; reflexivity|].
    split; [reflexivity|split; [reflexivity|]].
    intros _. cbn. auto.
Qed.

Lemma verify_email_first_three_hosts_witness :
  exists r l_rest,
    verify_email world_all_reject (PStr "user@example.com")
    = (([EvDns MX "example.com"] ++
        concat (map (fun h => fst (smtp_handshake world_all_reject h "user@example.com"))
                    ["a."; "b."; "c."]) ++ l_rest)%list, Ret r) /\
    r_mx r = true /\ r_smtp r = false /\
    (r_smtp r = false -> r_status r = Invalid /\ r_catch r = false /\ l_rest = []).
Proof.
  destruct (verify_email_first_three_hosts world_all_reject "user@example.com"
              "example.com" true ["a."; "b."; "c."; "d."] [EvDns MX "example.com"])
    as [_ H]; [reflexivity | reflexivity | reflexivity | discriminate |].
  exact H.
Defined.

(** ** The language of the syntax pattern *)

Lemma in_class_star p s r :
  In r (class_star p s) <-> exists u, s = (u ++ r)%list /\ forallb p u = true.
Proof.
  revert r. induction s as [|c t IH]; intros r; cbn.
  - split.
    + intros [<-|[]]. exists []. auto.
    + intros [u [Hu _]]. left. destruct u; [exact Hu|discriminate].
  - split.
    + intros [<-|H]; [exists []; auto|].
      destruct (p c) eqn:Hc; [|destruct H].
      apply IH in H. destruct H as [u [-> Hu]].
      exists (c :: u). cbn. rewrite Hc. auto.
    + intros [[|c' u] [Hs Hu]]; [left; exact Hs|right].
      cbn in Hs, Hu. injection Hs as -> ->.
      apply andb_true_iff in Hu as [-> Hu]. apply IH. eauto.
Qed.

Lemma in_class_at_least n p s r :
  In r (class_at_least n p s)
  <-> exists u, s = (u ++ r)%list /\ n <= length u /\ forallb p u = true.
Proof.
  revert s. induction n as [|n IH]; intros s; cbn.
  - rewrite in_class_star. split.
    + intros [u [? ?]]. exists u. split; [assumption|split; [lia|assumption]].
    + intros [u [? [_ ?]]]. eauto.
  - destruct s as [|c t].
    + split; [intros []|]. intros [u [Hu [Hn _]]].
      destruct u; [cbn in Hn; lia|discriminate].
    + split.
      * destruct (p c) eqn:Hc; [|intros []].
        intros H. apply IH in H. destruct H as [u [-> [Hn Hu]]].
        exists (c :: u). cbn. rewrite Hc. split; [reflexivity|split; [lia|exact Hu]].
      * intros [[|c' u] [Hs [Hn Hu]]]; [cbn in Hn; lia|].
        cbn in Hs, Hn, Hu. injection Hs as -> ->.
        apply andb_true_iff in Hu as [-> Hu]. apply IH.
        exists u. split; [reflexivity|split; [lia|exact Hu]].
Qed.

Lemma in_rests_cat r1 r2 s t :
  In t (rests (RCat r1 r2) s) <-> exists m, In m (rests r1 s) /\ In t (rests r2 m).
Proof. cbn. rewrite in_flat_map. reflexivity. Qed.

Lemma in_rests_class p s t :
  In t (rests (RClass p) s) <-> exists c, s = c :: t /\ p c = true.
Proof.
  cbn. destruct s as [|c s'].
  - split; [intros []|intros [c [H _]]; discriminate].
  - destruct (p c) eqn:Hc; split.
    + intros [<-|[]]. eauto.
    + intros [c' [H _]]. injection H as -> ->. left. reflexivity.
    + intros [].
    + intros [c' [H Hc']]. injection H as -> ->. congruence.
Qed.

Lemma in_rests_dollar s t :
  In t (rests RDollar s) <-> t = s /\ (s = [] \/ s = ["010"%char]).
Proof.
  cbn. destruct s as [|c [|c' s']].
  - split; [intros [<-|[]]; auto|intros [-> _]; left; reflexivity].
  - destruct (Ascii.eqb_spec c "010"%char) as [->|Hc].
    + split; [intros [<-|[]]; auto|intros [-> _]; left; reflexivity].
    + split; [intros []|]. intros [_ [H|H]]; [discriminate|injection H; tauto].
  - split; [intros []|]. intros [_ [H|H]]; discriminate.
Qed.

Lemma re_match_email_pattern s :
  re_match email_pattern s = true <-> email_shape (list_ascii_of_string s).
Proof.
  unfold re_match.
  assert (Hm : forall cs, (match rests email_pattern cs with [] => false | _ :: _ => true end = true)
                          <-> exists t, In t (rests email_pattern cs)).
  { intros cs. destruct (rests email_pattern cs) as [|t ts].
    - split; [discriminate|intros [t []]].
    - split; [intros _; exists t; left; reflexivity|reflexivity]. }
  rewrite Hm. clear Hm. unfold email_pattern. generalize (list_ascii_of_string s) as cs.
  intros cs. split.
  - intros [t H].
    apply in_rests_cat in H as [m0 [[<-|[]] H]].
    apply in_rests_cat in H as [m1 [H1 H]]. cbn [rests] in H1.
    apply in_class_at_least in H1 as [l [-> [Hl1 Hl2]]].
    apply in_rests_cat in H as [m2 [H2 H]].
    apply in_rests_class in H2 as [c1 [-> Hc1]].
    apply in_rests_cat in H as [m3 [H3 H]]. cbn [rests] in H3.
    apply in_class_at_least in H3 as [d [-> [Hd1 Hd2]]].
    apply in_rests_cat in H as [m4 [H4 H]].
    apply in_rests_class in H4 as [c2 [-> Hc2]].
    apply in_rests_cat in H as [m5 [H5 H]]. cbn [rests] in H5.
    apply in_class_at_least in H5 as [tl [-> [Ht1 Ht2]]].
    apply in_rests_dollar in H as [_ He].
    apply Ascii.eqb_eq in Hc1, Hc2. subst c1 c2.
    exists l, d, tl, m5. repeat split; assumption.
  - intros [l [d [tl [e [-> [Hl1 [Hl2 [Hd1 [Hd2 [Ht1 [Ht2 He]]]]]]]]]]].
    exists e.
    apply in_rests_cat. exists (l ++ ["@"%char] ++ d ++ ["."%char] ++ tl ++ e)%list.
    split; [left; reflexivity|].
    apply in_rests_cat. exists (["@"%char] ++ d ++ ["."%char] ++ tl ++ e)%list.
    split; [apply in_class_at_least; eexists; split; [reflexivity|split; assumption]|].
    apply in_rests_cat. exists (d ++ ["."%char] ++ tl ++ e)%list.
    split; [apply in_rests_class; eexists; split; reflexivity|].
    apply in_rests_cat. exists (["."%char] ++ tl ++ e)%list.
    split; [apply in_class_at_least; eexists; split; [reflexivity|split; assumption]|].
    apply in_rests_cat. exists (tl ++ e)%list.
    split; [apply in_rests_class; eexists; split; reflexivity|].
    apply in_rests_cat. exists e.
    split; [apply in_class_at_least; eexists; split; [reflexivity|split; assumption]|].
    apply in_rests_dollar. auto.
Qed.

(** C2 (counterexample): "a@b..co" has an empty domain label between two
    consecutive dots, yet validate_email_syntax accepts it, since the
    domain class [a-zA-Z0-9.-] contains the dot. *)
Lemma validate_email_syntax_accepts_empty_label :
  nth_error (py_split "@" "a@b..co") 1 = Some "b..co" /\
  In EmptyString (py_split "." "b..co") /\
  validate_email_syntax (PStr "a@b..co") = true.
Proof. split; [reflexivity|split; [cbn; tauto|reflexivity]]. Qed.

(** C2 (amended): for a str that does not end in a newline,
    validate_email_syntax returns true exactly when it is a non-empty local
    part over [A-Za-z0-9._%+-], "@", a non-empty run of [A-Za-z0-9.-] (dots
    anywhere, so empty labels pass), ".", and at least two letters; the
    empty string and every non-str value are rejected. It is a total
    boolean function, with no network access. *)
Theorem validate_email_syntax_shape (s : string) :
  ends_in_newline s = false ->
  (validate_email_syntax (PStr s) = true <-> email_shape_strict (list_ascii_of_string s)) /\
  validate_email_syntax (PStr EmptyString) = false /\
  (forall b, validate_email_syntax (PNonStr b) = false).
Proof.
  intros Hn. split; [|split; reflexivity].
  assert (Hsh : validate_email_syntax (PStr s) = true
                <-> email_shape (list_ascii_of_string s)).
  { unfold validate_email_syntax.
    destruct (String.eqb_spec s EmptyString) as [->|Hs].
    - split; [discriminate|]. cbn.
      intros [l [d [t [e [H [Hl _]]]]]].
      destruct l; [cbn in Hl; lia|discriminate].
    - apply re_match_email_pattern. }
  rewrite Hsh. split.
  - intros [l [d [t [e [Hs [Hl1 [Hl2 [Hd1 [Hd2 [Ht1 [Ht2 He]]]]]]]]]]].
    destruct He as [-> | ->].
    + exists l, d, t. rewrite app_nil_r in Hs. repeat (split; [assumption|]). assumption.
    + exfalso. unfold ends_in_newline in Hn. rewrite Hs in Hn.
      replace (l ++ ["@"%char] ++ d ++ ["."%char] ++ t ++ ["010"%char])%list
        with ((l ++ ["@"%char] ++ d ++ ["."%char] ++ t) ++ ["010"%char])%list in Hn
        by (rewrite <- !app_assoc; reflexivity).
      rewrite rev_unit in Hn. discriminate.
  - intros [l [d [t [Hs [Hl1 [Hl2 [Hd1 [Hd2 [Ht1 Ht2]]]]]]]]].
    exists l, d, t, []. rewrite app_nil_r.
    repeat (split; [assumption|]). left. reflexivity.
Qed.

Lemma validate_email_syntax_shape_witness :
  (validate_email_syntax (PStr "a@b..co") = true
   <-> email_shape_strict (list_ascii_of_string "a@b..co")) /\
  validate_email_syntax (PStr EmptyString) = false /\
  (forall b, validate_email_syntax (PNonStr b) = false).
Proof. apply validate_email_syntax_shape. reflexivity. Defined.


(** * Further properties of the code *)

(** ** check_dns_and_mx *)

Lemma check_dns_and_mx_unfold E d :
  check_dns_and_mx E d =
  match env_dns E MX d with
  | Ret recs => ([EvDns MX d], Ret (true, map fst (sort_by_pref recs)))
  | Raise e0 =>
      if mx_fallback_error e0 then
        match env_dns E A d with
        | Ret _ => ([EvDns MX d; EvDns A d], Ret (false, [d]))
        | Raise e1 =>
            if a_handled_error e1 then ([EvDns MX d; EvDns A d], Ret (false, []))
            else ([EvDns MX d; EvDns A d], Raise e1)
        end
      else ([EvDns MX d], Ret (false, []))
  end.
Proof.
  unfold check_dns_and_mx, resolve.
  destruct (env_dns E MX d) as [recs|e0]; [reflexivity|].
  destruct e0; cbn; try reflexivity;
    destruct (env_dns E A d) as [a|e1]; try reflexivity; destruct e1; reflexivity.
Qed.

(** check_dns_and_mx raises exactly when the MX query fails with NoAnswer,
    NXDOMAIN or NoNameservers and the fallback A query then fails with an
    exception other than NXDOMAIN and NoNameservers; that exception is the
    one raised. *)
Theorem check_dns_and_mx_raises_iff (E : env) (d : string) (e : exc) :
  snd (check_dns_and_mx E d) = Raise e <->
  (exists e0, env_dns E MX d = Raise e0 /\ mx_fallback_error e0 = true) /\
  env_dns E A d = Raise e /\ a_handled_error e = false.
Proof.
  rewrite check_dns_and_mx_unfold.
  destruct (env_dns E MX d) as [recs|e0].
  - split; [discriminate|]. intros [[e0 [H _]] _]. discriminate.
  - destruct (mx_fallback_error e0) eqn:Hf.
    + destruct (env_dns E A d) as [a|e1].
      * split; [discriminate|]. intros [_ [H _]]. discriminate.
      * destruct (a_handled_error e1) eqn:Ha; cbn.
        -- split; [discriminate|]. intros [_ [H H']]. injection H as ->. congruence.
        -- split.
           ++ intros H. injection H as ->. eauto.
           ++ intros [_ [H _]]. injection H as ->. reflexivity.
    + split; [discriminate|]. intros [[e0' [H Hf']] _]. injection H as ->. congruence.
Qed.

(** When check_dns_and_mx returns, hasMx is true only with the names of an
    MX answer, sorted; with hasMx false the host list is either empty or
    the domain itself, the latter only when the A query answered. The
    log holds only queries for that domain, MX first. *)
Theorem check_dns_and_mx_results (E : env) (d : string) (l : list event)
  (has_mx : bool) (hosts : list string) :
  check_dns_and_mx E d = (l, Ret (has_mx, hosts)) ->
  (has_mx = true ->
     exists recs, env_dns E MX d = Ret recs /\ hosts = map fst (sort_by_pref recs) /\
                  l = [EvDns MX d]) /\
  (has_mx = false ->
     (hosts = [] \/ (hosts = [d] /\ exists a, env_dns E A d = Ret a)) /\
     (l = [EvDns MX d] \/ l = [EvDns MX d; EvDns A d])).
Proof.
  rewrite check_dns_and_mx_unfold.
  destruct (env_dns E MX d) as [recs|e0].
  - intros H. inversion H; subst. split; [eauto|discriminate].
  - destruct (mx_fallback_error e0).
    + destruct (env_dns E A d) as [a|e1] eqn:HA.
      * intros H. inversion H; subst. split; [discriminate|]. intros _.
        split; [right; split; [reflexivity|eauto]|right; reflexivity].
      * destruct (a_handled_error e1); [|discriminate].
        intros H. inversion H; subst. split; [discriminate|]. intros _.
        split; [left; reflexivity|right; reflexivity].
    + intros H. inversion H; subst. split; [discriminate|]. intros _.
      split; [left; reflexivity|left; reflexivity].
Qed.

Lemma check_dns_and_mx_results_witness :
  check_dns_and_mx world_a_fallback "example.org"
  = ([EvDns MX "example.org"; EvDns A "example.org"], Ret (false, ["example.org"])) /\
  ((["example.org"] = [] \/
    (["example.org"] = ["example.org"] /\ exists a, env_dns world_a_fallback A "example.org" = Ret a)) /\
   ([EvDns MX "example.org"; EvDns A "example.org"] = [EvDns MX "example.org"] \/
    [EvDns MX "example.org"; EvDns A "example.org"]
    = [EvDns MX "example.org"; EvDns A "example.org"])).
Proof.
  split; [reflexivity|].
  apply (check_dns_and_mx_results world_a_fallback "example.org" _ false ["example.org"]);
    reflexivity.
Defined.

(** ** smtp_handshake *)

(** smtp_handshake reports accepted = True exactly when its message is
    "Accepted": no failure path leaves that text as the last error. *)
Theorem smtp_handshake_accepted_iff_message (E : env) (h e : string) :
  fst (snd (smtp_handshake E h e)) = true <-> snd (snd (smtp_handshake E h e)) = RAccepted.
Proof. rewrite smtp_handshake_eval. cbn. split; discriminate. Qed.

(** smtp_handshake only talks to the given host, on at most the three
    ports 25, 587, 465, each connected to at most once and in that order,
    and issues RCPT TO only for the given address. *)
Theorem smtp_handshake_contacts (E : env) (h e : string) :
  Forall (probe_event_ok h e) (fst (smtp_handshake E h e)) /\
  exists k, connect_ports (fst (smtp_handshake E h e)) = firstn k [25%Z; 587%Z; 465%Z].
Proof.
  rewrite smtp_handshake_eval. split; [constructor|exists 0; reflexivity].
Qed.

(** ** The domain split and the catch-all address of verify_email *)

Lemma list_ascii_of_string_app s1 s2 :
  list_ascii_of_string (s1 ++ s2) = (list_ascii_of_string s1 ++ list_ascii_of_string s2)%list.
Proof. induction s1 as [|c s1 IH]; cbn; [reflexivity|]. rewrite IH. reflexivity. Qed.

Lemma string_of_list_ascii_app (a b : list ascii) :
  string_of_list_ascii (a ++ b)%list = (string_of_list_ascii a ++ string_of_list_ascii b)%string.
Proof. induction a as [|c a IH]; cbn; [reflexivity|]. rewrite IH. reflexivity. Qed.

Lemma list_ascii_of_string_length s : length (list_ascii_of_string s) = String.length s.
Proof. induction s as [|c s IH]; cbn; [reflexivity|]. rewrite IH. reflexivity. Qed.

Lemma py_split_no_sep sep s :
  (forall c, In c (list_ascii_of_string s) -> c <> sep) -> py_split sep s = [s].
Proof.
  induction s as [|c s IH]; intros H; cbn; [reflexivity|].
  destruct (Ascii.eqb_spec c sep) as [Hc|Hc]; [exfalso; apply (H c); [left|]; auto|].
  rewrite IH; [reflexivity|]. intros c' Hc'. apply H. right. exact Hc'.
Qed.

Lemma py_split_first sep s1 s2 :
  (forall c, In c (list_ascii_of_string s1) -> c <> sep) ->
  py_split sep (s1 ++ String sep s2) = s1 :: py_split sep s2.
Proof.
  induction s1 as [|c s1 IH]; intros H; cbn.
  - rewrite Ascii.eqb_refl. reflexivity.
  - destruct (Ascii.eqb_spec c sep) as [Hc|Hc]; [exfalso; apply (H c); [left|]; auto|].
    rewrite IH; [reflexivity|]. intros c' Hc'. apply H. right. exact Hc'.
Qed.

Lemma validate_shape s :
  validate_email_syntax (PStr s) = true <-> email_shape (list_ascii_of_string s).
Proof.
  unfold validate_email_syntax.
  destruct (String.eqb_spec s EmptyString) as [->|Hs].
  - split; [discriminate|]. intros [l [d [t [e [H [Hl _]]]]]].
    destruct l; [cbn in Hl; lia|discriminate].
  - apply re_match_email_pattern.
Qed.

Lemma forallb_not_at p l :
  p "@"%char = false -> forallb p l = true -> forall c, In c l -> c <> "@"%char.
Proof.
  intros Hp Hl c Hc ->. rewrite forallb_forall in Hl. rewrite (Hl _ Hc) in Hp. discriminate.
Qed.

(** A valid address splits at its only '@'. *)
Lemma valid_address_split s :
  validate_email_syntax (PStr s) = true ->
  exists l d t e,
    list_ascii_of_string s = (l ++ ["@"%char] ++ d ++ ["."%char] ++ t ++ e)%list /\
    1 <= length l /\ forallb local_class l = true /\
    1 <= length d /\ forallb domain_class d = true /\
    2 <= length t /\ forallb is_alpha t = true /\ (e = [] \/ e = ["010"%char]) /\
    py_split "@" s = [string_of_list_ascii l;
                      string_of_list_ascii (d ++ ["."%char] ++ t ++ e)%list].
Proof.
  intros Hv. apply validate_shape in Hv as Hsh.
  destruct Hsh as [l [d [t [e [Hs [Hl1 [Hl2 [Hd1 [Hd2 [Ht1 [Ht2 He]]]]]]]]]]].
  exists l, d, t, e. repeat (split; [assumption|]).
  rewrite <- (string_of_list_ascii_of_string s), Hs.
  rewrite string_of_list_ascii_app. cbn [app string_of_list_ascii].
  rewrite py_split_first.
  2:{ rewrite list_ascii_of_string_of_list_ascii.
      apply forallb_not_at with (p := local_class); [reflexivity|exact Hl2]. }
  rewrite py_split_no_sep; [reflexivity|].
  rewrite list_ascii_of_string_of_list_ascii.
  intros c Hc. apply in_app_or in Hc as [Hc|Hc].
  { revert c Hc. apply forallb_not_at with (p := domain_class); [reflexivity|exact Hd2]. }
  destruct Hc as [ <- | Hc ]; [discriminate|].
  apply in_app_or in Hc as [Hc|Hc].
  { revert c Hc. apply forallb_not_at with (p := is_alpha); [reflexivity|exact Ht2]. }
  destruct He as [ -> | -> ]; [destruct Hc|]. destruct Hc as [ <- | [] ]. discriminate.
Qed.

(** For an address accepted by validate_email_syntax, [email.split('@')]
    has exactly two parts, the text before and after its only '@', so the
    IndexError branch of verify_email is never taken. *)
Theorem verify_email_domain_split (s : string) :
  validate_email_syntax (PStr s) = true ->
  exists local domain,
    s = (local ++ String "@" domain)%string /\
    py_split "@" s = [local; domain] /\
    nth_error (py_split "@" s) 1 = Some domain.
Proof.
  intros Hv. destruct (valid_address_split s Hv)
    as [l [d [t [e [Hs [_ [_ [_ [_ [_ [_ [_ Hsp]]]]]]]]]]]].
  exists (string_of_list_ascii l), (string_of_list_ascii (d ++ ["."%char] ++ t ++ e)%list).
  split; [|rewrite Hsp; split; reflexivity].
  transitivity (string_of_list_ascii (list_ascii_of_string s));
    [symmetry; apply string_of_list_ascii_of_string|].
  rewrite Hs, string_of_list_ascii_app. reflexivity.
Qed.

Lemma verify_email_domain_split_witness :
  exists local domain,
    "user@example.com" = (local ++ String "@" domain)%string /\
    py_split "@" "user@example.com" = [local; domain] /\
    nth_error (py_split "@" "user@example.com") 1 = Some domain.
Proof. apply verify_email_domain_split. reflexivity. Defined.

(** The synthetic catch-all address built for the domain of a valid
    address is itself accepted by validate_email_syntax. *)
Theorem generate_random_email_valid (E : env) (s d : string) :
  validate_email_syntax (PStr s) = true ->
  nth_error (py_split "@" s) 1 = Some d ->
  validate_email_syntax (PStr (generate_random_email E d)) = true.
Proof.
  intros Hv Hd.
  destruct (valid_address_split s Hv)
    as [l [dd [t [e [_ [_ [_ [Hd1 [Hd2 [Ht1 [Ht2 [He Hsp]]]]]]]]]]]].
  rewrite Hsp in Hd. cbn in Hd. injection Hd as <-.
  apply validate_shape. unfold generate_random_email.
  rewrite !list_ascii_of_string_app, list_ascii_of_string_of_list_ascii. cbn [list_ascii_of_string].
  exists (list_ascii_of_string (random_string E)), dd, t, e.
  split; [reflexivity|].
  split; [rewrite list_ascii_of_string_length; unfold random_string;
           rewrite random_choices_length; lia|].
  split.
  - apply forallb_forall. intros c Hc.
    unfold random_string in Hc. apply random_choices_in_pop in Hc; [|discriminate].
    assert (Hpop : forallb local_class (list_ascii_of_string random_population) = true)
      by reflexivity.
    rewrite forallb_forall in Hpop. apply Hpop, Hc.
  - repeat (split; [assumption|]). exact He.
Qed.

Lemma generate_random_email_valid_witness :
  validate_email_syntax (PStr (generate_random_email world_valid "example.com")) = true.
Proof.
  apply (generate_random_email_valid world_valid "user@example.com"); reflexivity.
Defined.

(** ** verify_email after the DNS step *)

Lemma verify_email_dns_raise E s d e :
  validate_email_syntax (PStr s) = true ->
  nth_error (py_split "@" s) 1 = Some d ->
  snd (check_dns_and_mx E d) = Raise e ->
  verify_email E (PStr s) = (fst (check_dns_and_mx E d), Raise e).
Proof.
  intros Hv Hd Hc. unfold verify_email. rewrite Hv, Hd. cbn [negb].
  destruct (check_dns_and_mx E d) as [l0 r0]. cbn in Hc. subst r0. reflexivity.
Qed.

Lemma verify_email_after_dns_ret E s d l0 has_mx hosts :
  validate_email_syntax (PStr s) = true ->
  nth_error (py_split "@" s) 1 = Some d ->
  check_dns_and_mx E d = (l0, Ret (has_mx, hosts)) ->
  exists l r, verify_email E (PStr s) = (l, Ret r).
Proof.
  intros Hv Hd Hc. unfold verify_email. rewrite Hv, Hd, Hc. cbn [negb].
  rewrite bind_Ret_eq. destruct hosts as [|h hs]; [eexists; eexists; reflexivity|].
  destruct (try_hosts E (firstn 3 (h :: hs)) s (false, RNoMxHosts))
    as [l1 [accepted msg]].
  unfold lift at 1. cbn [fst snd]. rewrite bind_Ret_eq.
  destruct accepted; cbn [negb]; [|eexists; eexists; reflexivity].
  unfold lift. rewrite bind_Ret_eq. eexists; eexists; reflexivity.
Qed.

(** verify_email raises exactly when the address is a valid str whose
    domain makes check_dns_and_mx raise, with that exception: the
    SMTP and catch-all steps never raise. *)
Theorem verify_email_raises_iff (E : env) (v : pyval) (e : exc) :
  snd (verify_email E v) = Raise e <->
  exists s d, v = PStr s /\ validate_email_syntax (PStr s) = true /\
              nth_error (py_split "@" s) 1 = Some d /\
              snd (check_dns_and_mx E d) = Raise e.
Proof.
  split.
  - destruct v as [s|x]; [|cbn; discriminate].
    destruct (validate_email_syntax (PStr s)) eqn:Hv;
      [|unfold verify_email; rewrite Hv; discriminate].
    destruct (nth_error (py_split "@" s) 1) as [d|] eqn:Hd;
      [|unfold verify_email; rewrite Hv, Hd; discriminate].
    destruct (check_dns_and_mx E d) as [l0 [[has_mx hosts]|e0]] eqn:Hc.
    + destruct (verify_email_after_dns_ret E s d l0 has_mx hosts Hv Hd Hc) as [l [r ->]].
      discriminate.
    + rewrite (verify_email_dns_raise E s d e0 Hv Hd); [|rewrite Hc; reflexivity].
      intros H. exists s, d. rewrite Hc. cbn in H |- *. injection H as ->. auto.
  - intros (s & d & -> & Hv & Hd & Hc).
    rewrite (verify_email_dns_raise E s d e Hv Hd Hc). reflexivity.
Qed.

(** When check_dns_and_mx returns no host (whatever hasMx is), verify_email
    stops there: no SMTP session, and the result has syntax true, mx
    false and status invalid. *)
Theorem verify_email_no_hosts (E : env) (s d : string) (l0 : list event) (has_mx : bool) :
  validate_email_syntax (PStr s) = true ->
  nth_error (py_split "@" s) 1 = Some d ->
  check_dns_and_mx E d = (l0, Ret (has_mx, [])) ->
  verify_email E (PStr s) = (l0, Ret (mk_result (PStr s) true false false false Invalid)).
Proof.
  intros Hv Hd Hc. unfold verify_email. rewrite Hv, Hd, Hc. cbn [negb].
  rewrite bind_Ret_eq. cbn. rewrite app_nil_r. reflexivity.
Qed.

Lemma verify_email_no_hosts_witness :
  verify_email world_valid (PStr "user@nowhere.org")
  = ([EvDns MX "nowhere.org"; EvDns A "nowhere.org"],
     Ret (mk_result (PStr "user@nowhere.org") true false false false Invalid)).
Proof. apply (verify_email_no_hosts world_valid _ "nowhere.org" _ false); reflexivity. Defined.

Lemma try_hosts_type_error E hosts email m :
  fst (try_hosts E hosts email (false, m)) = [] /\
  fst (snd (try_hosts E hosts email (false, m))) = false.
Proof.
  revert m. induction hosts as [|h t IH]; intros m; cbn -[smtp_handshake];
    [split; reflexivity|].
  rewrite smtp_handshake_eval. cbn -[try_hosts].
  destruct (IH (RSmtpError 465 connect_type_error)) as [H1 H2].
  destruct (try_hosts E t email _) as [l2 r]. cbn in *. subst. split; [reflexivity|exact H2].
Qed.

Lemma check_dns_and_mx_dns_events E d : Forall dns_event (fst (check_dns_and_mx E d)).
Proof.
  rewrite check_dns_and_mx_unfold.
  destruct (env_dns E MX d); [repeat constructor|].
  destruct (mx_fallback_error _); [|repeat constructor].
  destruct (env_dns E A d); [repeat constructor|].
  destruct (a_handled_error _); repeat constructor.
Qed.

(** verify_email never reports an accepting server: smtp_accepts and
    catch_all stay false and the status is invalid whenever it returns, and
    its only network traffic is DNS queries, since every SMTP probe ends in
    the TypeError of the connect call. *)
Theorem verify_email_never_accepts (E : env) (v : pyval) (l : list event) (r : result) :
  verify_email E v = (l, Ret r) ->
  r_smtp r = false /\ r_catch r = false /\ r_status r = Invalid /\ Forall dns_event l.
Proof.
  intros H. unfold verify_email in H.
  destruct (validate_email_syntax v) eqn:Hv; cbn [negb] in H.
  2:{ inversion H; subst. split; [reflexivity|split; [reflexivity|split; [reflexivity|constructor]]]. }
  destruct v as [s|x]; [|discriminate].
  destruct (nth_error (py_split "@" s) 1) as [d|].
  2:{ inversion H; subst. split; [reflexivity|split; [reflexivity|split; [reflexivity|constructor]]]. }
  pose proof (check_dns_and_mx_dns_events E d) as Hl0.
  destruct (check_dns_and_mx E d) as [l0 [[has_mx hosts]|e0]]; [|discriminate].
  cbn in Hl0. rewrite bind_Ret_eq in H.
  destruct hosts as [|h t].
  { cbn in H. inversion H; subst. rewrite app_nil_r.
    split; [reflexivity|split; [reflexivity|split; [reflexivity|exact Hl0]]]. }
  destruct (try_hosts_type_error E (firstn 3 (h :: t)) s RNoMxHosts) as [H1 H2].
  destruct (try_hosts E (firstn 3 (h :: t)) s (false, RNoMxHosts)) as [l1 [acc msg]].
  cbn in H1, H2. subst. cbn in H. inversion H; subst.
  rewrite app_nil_r. split; [reflexivity|split; [reflexivity|split; [reflexivity|exact Hl0]]].
Qed.

Lemma verify_email_never_accepts_witness :
  false = false /\ false = false /\ Invalid = Invalid /\
  Forall dns_event [EvDns MX "example.com"].
Proof.
  apply (verify_email_never_accepts world_valid (PStr "user@example.com")
           [EvDns MX "example.com"]
           (mk_result (PStr "user@example.com") true true false false Invalid)).
  vm_compute. reflexivity.
Defined.

(** ** The /verify endpoint *)

(** Every response of /verify is a 200 with a verify_email result, a 400
    with an error text and no network traffic, or a 500 carrying the text
    of an exception. *)
Theorem verify_responses (E : env) (request : res json) :
  let '(l, resp) := verify E request in
  (resp_code resp = 200%Z /\ exists r, resp_body resp = BResult r) \/
  (resp_code resp = 400%Z /\ l = [] /\ exists m, resp_body resp = BError m) \/
  (resp_code resp = 500%Z /\ exists e, resp_body resp = BInternal (exc_str e)).
Proof.
  unfold verify, internal_error.
  destruct request as [data|e]; [|right; right; split; [reflexivity|eexists; reflexivity]].
  destruct (json_truthy data); cbn [negb];
    [|right; left; split; [reflexivity|split; [reflexivity|eexists; reflexivity]]].
  destruct (json_get data "email") as [email|e];
    [|right; right; split; [reflexivity|eexists; reflexivity]].
  destruct (json_truthy email); cbn [negb];
    [|right; left; split; [reflexivity|split; [reflexivity|eexists; reflexivity]]].
  destruct email as [| | | |s| |];
    try (right; left; split; [reflexivity|split; [reflexivity|eexists; reflexivity]]; fail).
  destruct (verify_email E (PStr s)) as [l [r|e]].
  - left. split; [reflexivity|eexists; reflexivity].
  - right; right. split; [reflexivity|eexists; reflexivity].
Qed.

(** /verify answers 200 exactly when the body is a JSON object whose
    'email' member (the last one, as json.loads keeps it) is a non-empty
    string and verify_email returns on it; the body is that result and the
    traffic is that of verify_email. *)
Theorem verify_ok_iff (E : env) (request : res json) :
  resp_code (snd (verify E request)) = 200%Z <->
  exists kvs s r, request = Ret (JObj kvs) /\ obj_lookup "email" kvs = Some (JStr s) /\
    s <> EmptyString /\ snd (verify_email E (PStr s)) = Ret r /\
    verify E request = (fst (verify_email E (PStr s)),
                        {| resp_code := 200; resp_body := BResult r |}).
Proof.
  split.
  - unfold verify. destruct request as [data|e]; [|discriminate].
    destruct (json_truthy data) eqn:Hd; cbn [negb]; [|discriminate].
    destruct data as [| | | | |xs|kvs]; try discriminate.
    unfold json_get. destruct (obj_lookup "email" kvs) as [email|] eqn:Hl; [|discriminate].
    destruct (json_truthy email) eqn:Ht; cbn [negb]; [|discriminate].
    destruct email as [| | | |s| |]; try discriminate.
    destruct (verify_email E (PStr s)) as [l [r|e]] eqn:Hve; [|discriminate].
    intros _. exists kvs, s, r.
    split; [reflexivity|]. split; [exact Hl|]. split; [intros ->; discriminate|].
    rewrite Hve. split; reflexivity.
  - intros (kvs & s & r & _ & _ & _ & _ & ->). reflexivity.
Qed.

(** A body that decodes to a truthy JSON value other than an object (a
    non-empty list or string, a non-zero int or float, NaN, Infinity,
    true) has no [get]:
    /verify answers 500 with the AttributeError text, before any network
    traffic. *)
Theorem verify_non_object_body (E : env) (data : json) :
  json_truthy data = true ->
  (forall kvs, data <> JObj kvs) ->
  verify E (Ret data)
  = ([], internal_error
           (OtherExc ("'" ++ json_type_name data ++ "' object has no attribute 'get'"))).
Proof.
  intros Ht Hn. unfold verify. rewrite Ht. cbn [negb].
  destruct data as [| | | | | |kvs]; try reflexivity. exfalso. exact (Hn kvs eq_refl).
Qed.

Lemma verify_non_object_body_witness :
  verify world_valid (Ret (JFloat 1.5%float))
  = ([], internal_error (OtherExc "'float' object has no attribute 'get'")).
Proof.
  apply (verify_non_object_body world_valid (JFloat 1.5%float)); [reflexivity|discriminate].
Defined.

(** A non-empty object whose 'email' member is missing or falsy (null,
    false, 0, 0.0, an empty string, list or object) gets the 400 'Email field
    is required', without network traffic. *)
Theorem verify_email_field_required (E : env) (kvs : list (string * json)) :
  kvs <> [] ->
  match obj_lookup "email" kvs with None => True | Some v => json_truthy v = false end ->
  verify E (Ret (JObj kvs))
  = ([], {| resp_code := 400; resp_body := BError "Email field is required" |}).
Proof.
  intros Hne Hl. unfold verify. destruct kvs as [|kv kvs]; [congruence|]. cbn [json_truthy negb].
  unfold json_get. destruct (obj_lookup "email" (kv :: kvs)) as [v|]; [|reflexivity].
  rewrite Hl. reflexivity.
Qed.

Lemma verify_email_field_required_witness :
  verify world_valid (Ret (JObj [("mail", JStr "user@example.com"); ("email", JStr "")]))
  = ([], {| resp_code := 400; resp_body := BError "Email field is required" |}).
Proof. apply verify_email_field_required; [discriminate|reflexivity]. Defined.

(** A truthy 'email' member that is not a string (a number, true, a
    non-empty list or object) gets the 400 'Email must be a string',
    without network traffic. *)
Theorem verify_email_field_not_string (E : env) (kvs : list (string * json)) (v : json) :
  obj_lookup "email" kvs = Some v ->
  json_truthy v = true ->
  (forall s, v <> JStr s) ->
  verify E (Ret (JObj kvs))
  = ([], {| resp_code := 400; resp_body := BError "Email must be a string" |}).
Proof.
  intros Hl Ht Hs. unfold verify.
  destruct kvs as [|kv kvs]; [discriminate|]. cbn [json_truthy negb].
  unfold json_get. rewrite Hl, Ht. cbn [negb].
  destruct v as [| | | |s| |]; try reflexivity. exfalso. exact (Hs s eq_refl).
Qed.

Lemma verify_email_field_not_string_witness :
  verify world_valid (Ret (JObj [("email", JNum 42)]))
  = ([], {| resp_code := 400; resp_body := BError "Email must be a string" |}).
Proof.
  apply (verify_email_field_not_string world_valid _ (JNum 42)); [reflexivity|reflexivity|].
  discriminate.
Defined.

(** A valid address whose domain makes check_dns_and_mx raise (the
    NoAnswer or timeout of the fallback A query) is answered with a 500
    carrying that exception's text, after the DNS queries. *)
Theorem verify_dns_failure_500 (E : env) (kvs : list (string * json)) (s d : string) (e : exc) :
  obj_lookup "email" kvs = Some (JStr s) ->
  validate_email_syntax (PStr s) = true ->
  nth_error (py_split "@" s) 1 = Some d ->
  snd (check_dns_and_mx E d) = Raise e ->
  verify E (Ret (JObj kvs)) = (fst (check_dns_and_mx E d), internal_error e).
Proof.
  intros Hl Hv Hd Hc. unfold verify.
  destruct kvs as [|kv kvs]; [discriminate|]. cbn [json_truthy negb].
  unfold json_get. rewrite Hl.
  assert (Hs : json_truthy (JStr s) = true).
  { cbn. destruct (String.eqb_spec s EmptyString) as [->|]; [discriminate|reflexivity]. }
  rewrite Hs. cbn [negb].
  rewrite (verify_email_dns_raise E s d e Hv Hd Hc). reflexivity.
Qed.

Lemma verify_dns_failure_500_witness :
  verify world_no_a_record (Ret (JObj [("email", JStr "user@ipv6only.example")]))
  = ([EvDns MX "ipv6only.example"; EvDns A "ipv6only.example"],
     internal_error (no_answer A "ipv6only.example")).
Proof.
  apply (verify_dns_failure_500 world_no_a_record _ "user@ipv6only.example" "ipv6only.example");
    reflexivity.
Defined.
